(** * next16poc: the storefront pages, the server action and the
      revalidation route, embedded and checked against their description.

    The repository is a Next.js storefront.  Its logic lives in a handful of
    TypeScript functions: the data-fetch helpers ([getProduct],
    [getRelatedProducts], [getAllProducts], [getCategories],
    [getFeaturedProducts]), the query-string filter of the catalog page, the
    discount arithmetic of the product cards, the server action
    [revalidateBargains] and the [POST] handler of [/api/revalidate].  The
    cache-life status table is documentation (docs/cache.md) and is embedded
    as the table it is.

    JavaScript numbers are IEEE 754 binary64 values; they are modelled by the
    kernel's primitive floats, whose operations are the same ones.  Strings
    are sequences of code units below 256. *)

From Stdlib Require Import ZArith List Bool String Ascii Lia.
From Stdlib Require Import Floats.
Import ListNotations.

#[local] Set Warnings "-register-all".

Local Open Scope string_scope.
Local Open Scope Z_scope.

(* ===================================================================== *)
(** ** The JavaScript runtime the pages rely on                           *)
(* ===================================================================== *)

Module JS.

(** *** Numbers *)

Definition number := float.

(** [a >= b] and [a <= b]; [a > b]; [a === b] and [a !== b] on numbers. *)
Definition ge (a b : number) : bool := (b <=? a)%float.
Definition le (a b : number) : bool := (a <=? b)%float.
Definition gt (a b : number) : bool := (b <? a)%float.
Definition strictNe (a b : number) : bool := negb (a =? b)%float.

(** ToBoolean on a number: [0], [-0] and [NaN] are falsy. *)
Definition truthyNumber (x : number) : bool :=
  negb (is_zero x || is_nan x).

(** ToBoolean on a string: only the empty string is falsy. *)
Definition truthyString (s : string) : bool :=
  match s with
  | EmptyString => false
  | String _ _ => true
  end.

(** An optional query parameter or a nullable value used as a condition:
    [undefined] is falsy, a string is tested as above. *)
Definition provided (o : option string) : bool :=
  match o with
  | None => false
  | Some s => truthyString s
  end.

(** *** Strings *)

Definition codeOf (c : ascii) : N := N_of_ascii c.

(** [String.prototype.toLowerCase] on code units below 256: the letters
    A-Z, and the Latin-1 capitals U+00C0-U+00DE except the multiplication
    sign U+00D7, move up by 32. *)
Definition lowerChar (c : ascii) : ascii :=
  let n := codeOf c in
  if ((65 <=? n) && (n <=? 90))%N then ascii_of_N (n + 32)
  else if ((192 <=? n) && (n <=? 222) && negb (n =? 215))%N
       then ascii_of_N (n + 32)
       else c.

Fixpoint toLowerCase (s : string) : string :=
  match s with
  | EmptyString => EmptyString
  | String c s' => String (lowerChar c) (toLowerCase s')
  end.

(** [s.includes(sub)]. *)
Fixpoint includes (s sub : string) : bool :=
  prefix sub s ||
  match s with
  | EmptyString => false
  | String _ s' => includes s' sub
  end.

(** *** Arrays *)

(** [arr.slice(start, end)] for integer arguments: a negative index counts
    from the end of the array, and both are clamped to the array. *)
Definition relativeIndex (len i : Z) : Z :=
  if i <? 0 then Z.max (len + i) 0 else Z.min i len.

Definition slice {A : Type} (start end_ : Z) (arr : list A) : list A :=
  let len := Z.of_nat (List.length arr) in
  let k := relativeIndex len start in
  let final := relativeIndex len end_ in
  firstn (Z.to_nat (Z.max (final - k) 0)) (skipn (Z.to_nat k) arr).

(** [x.toFixed(digits)]: the decimal text of [x] with [digits] fraction
    digits.  The rendered text is kept as the number and the digit count it
    is printed from. *)
Record fixedText := toFixed { fixedOf : number; fixedDigits : nat }.

(** *** parseFloat *)

(** White space and line terminators that [parseFloat] skips, among the
    code units below 256: TAB, LF, VT, FF, CR, SP and NBSP. *)
Definition isWhiteSpace (c : ascii) : bool :=
  let n := codeOf c in
  (((9 <=? n) && (n <=? 13)) || (n =? 32) || (n =? 160))%N.

Fixpoint trimStart (s : string) : string :=
  match s with
  | String c s' => if isWhiteSpace c then trimStart s' else s
  | EmptyString => EmptyString
  end.

Definition digitOf (c : ascii) : option Z :=
  let n := codeOf c in
  if ((48 <=? n) && (n <=? 57))%N then Some (Z.of_N (n - 48)) else None.

(** The longest run of decimal digits at the head of [s], most significant
    first, and what follows it. *)
Fixpoint spanDigits (s : string) : list Z * string :=
  match s with
  | String c s' =>
      match digitOf c with
      | Some d => let (ds, rest) := spanDigits s' in (d :: ds, rest)
      | None => ([], s)
      end
  | EmptyString => ([], EmptyString)
  end.

Definition digitsValue (ds : list Z) : Z :=
  fold_left (fun acc d => 10 * acc + d) ds 0.

(** An optional sign; [true] is minus. *)
Definition takeSign (s : string) : bool * string :=
  match s with
  | String "-" s' => (true, s')
  | String "+" s' => (false, s')
  | _ => (false, s)
  end.

(** The longest prefix of the input that is a [StrDecimalLiteral]. *)
Inductive literal :=
  | LitInfinity (neg : bool)
  | LitDecimal (neg : bool) (mantissa : Z) (exponent10 : Z).

(** An [ExponentPart] at the head of [s]: [e] or [E], an optional sign and
    at least one digit.  Without the digits there is no exponent part and
    the literal ends before the [e]. *)
Definition exponentPart (s : string) : Z :=
  match s with
  | String c s' =>
      if (Ascii.eqb c "e" || Ascii.eqb c "E")%bool then
        let (neg, s'') := takeSign s' in
        match spanDigits s'' with
        | ([], _) => 0
        | (ds, _) => if neg then - digitsValue ds else digitsValue ds
        end
      else 0
  | EmptyString => 0
  end.

Definition decimalPrefix (s : string) : option literal :=
  let (neg, s1) := takeSign s in
  if prefix "Infinity" s1 then Some (LitInfinity neg)
  else
    let (ints, s2) := spanDigits s1 in
    match s2 with
    | String "." s3 =>
        let (fracs, s4) := spanDigits s3 in
        match ints, fracs with
        | [], [] => None
        | _, _ =>
            Some (LitDecimal neg (digitsValue (ints ++ fracs))
                    (exponentPart s4 - Z.of_nat (List.length fracs)))
        end
    | _ =>
        match ints with
        | [] => None
        | _ => Some (LitDecimal neg (digitsValue ints) (exponentPart s2))
        end
    end.

(** The binary64 value nearest to [m * 10^e] for [m > 0] (ties to even). *)
Definition roundDecimal (neg : bool) (m : positive) (e : Z) : spec_float :=
  match e with
  | Zneg k =>
      let '(q, e', loc) :=
        SFdiv_core_binary prec emax (Zpos m) 0 (Zpos (10 ^ k)) 0 in
      binary_round_aux prec emax neg q e' loc
  | _ => binary_round prec emax neg (m * Z.to_pos (10 ^ e)) 0
  end.

Definition literalValue (l : literal) : number :=
  match l with
  | LitInfinity neg => if neg then neg_infinity else infinity
  | LitDecimal neg m e =>
      match m with
      | Zpos p => SF2Prim (roundDecimal neg p e)
      | _ => if neg then neg_zero else zero
      end
  end.

Definition parseFloat (s : string) : number :=
  match decimalPrefix (trimStart s) with
  | Some l => literalValue l
  | None => nan
  end.

End JS.

(* ===================================================================== *)
(** ** JSON data as JavaScript values                                     *)
(* ===================================================================== *)

Module Json.

(** What [res.json()] and [request.json()] can produce, and [undefined],
    which reading a missing property produces. *)
Inductive value :=
  | VUndefined
  | VNull
  | VBool (b : bool)
  | VNumber (x : JS.number)
  | VString (s : string)
  | VArray (items : list value)
  | VObject (fields : list (string * value)).

Definition typeof (v : value) : string :=
  match v with
  | VUndefined => "undefined"
  | VNull => "object"
  | VBool _ => "boolean"
  | VNumber _ => "number"
  | VString _ => "string"
  | VArray _ => "object"
  | VObject _ => "object"
  end.

(** ToBoolean. *)
Definition truthy (v : value) : bool :=
  match v with
  | VUndefined => false
  | VNull => false
  | VBool b => b
  | VNumber x => JS.truthyNumber x
  | VString s => JS.truthyString s
  | VArray _ => true
  | VObject _ => true
  end.

Fixpoint lookup (name : string) (fields : list (string * value)) : value :=
  match fields with
  | [] => VUndefined
  | (k, v) :: rest => if String.eqb k name then v else lookup name rest
  end.

End Json.

(* ===================================================================== *)
(** ** Effects: exceptions, the console and the cache calls               *)
(* ===================================================================== *)

Module Effects.

(** What a [throw] or a rejected promise carries: an [Error] instance with
    its message, some other value, or the signal [notFound()] raises for
    the framework to render the not-found page. *)
Inductive thrown :=
  | ErrorObject (message : string)
  | OtherValue
  | NotFoundSignal.

Inductive completion (A : Type) :=
  | Return (a : A)
  | Throw (t : thrown).
Arguments Return {A} a.
Arguments Throw {A} t.

(** The three cache functions of [next/cache] the repository calls. *)
Inductive cacheCall :=
  | UpdateTag (tag : string)
  | RevalidateTag (tag : string) (profile : string)
  | RevalidatePath (path : Json.value).

(** What a run leaves behind: the lines [console.error] wrote (label and
    error) and the cache functions invoked, both oldest first. *)
Record world := World {
  console : list (string * thrown);
  cacheCalls : list cacheCall
}.

Definition emptyWorld : world := World [] [].

(** A computation may read and extend the world and completes normally or
    abruptly; what it wrote before a [throw] stays written. *)
Definition M (A : Type) : Type := world -> completion A * world.

Definition ret {A} (a : A) : M A := fun w => (Return a, w).

Definition bind {A B} (m : M A) (k : A -> M B) : M B :=
  fun w =>
    match m w with
    | (Return a, w') => k a w'
    | (Throw t, w') => (Throw t, w')
    end.

Definition throw {A} (t : thrown) : M A := fun w => (Throw t, w).

(** [await] of a promise whose outcome the environment decides. *)
Definition await {A} (c : completion A) : M A := fun w => (c, w).

Definition tryCatch {A} (body : M A) (handler : thrown -> M A) : M A :=
  fun w =>
    match body w with
    | (Return a, w') => (Return a, w')
    | (Throw t, w') => handler t w'
    end.

Definition consoleError (label : string) (error : thrown) : M unit :=
  fun w => (Return tt, World (console w ++ [(label, error)]) (cacheCalls w)).

Fixpoint mapM {A B} (f : A -> M B) (l : list A) : M (list B) :=
  match l with
  | [] => ret []
  | a :: rest =>
      bind (f a) (fun b => bind (mapM f rest) (fun bs => ret (b :: bs)))
  end.

Definition isThrow {A} (c : completion A) : bool :=
  match c with
  | Throw _ => true
  | Return _ => false
  end.

Module Notations.
  Declare Scope js_scope.
  Delimit Scope js_scope with js.
  Notation "x <- m ;; k" := (bind m (fun x => k))
    (at level 100, m at next level, right associativity) : js_scope.
  Notation "m ;;; k" := (bind m (fun _ => k))
    (at level 100, right associativity) : js_scope.
End Notations.

(** Reading a property: [undefined] and [null] have none and the access
    throws a [TypeError]; an object gives the field or [undefined].  Other
    values have only inherited properties, none of which is called [slug]
    or [path], the two names the repository reads. *)
Definition getProperty (v : Json.value) (name : string) : M Json.value :=
  match v with
  | Json.VUndefined | Json.VNull =>
      throw (ErrorObject "Cannot read properties of null or undefined")
  | Json.VObject fields => ret (Json.lookup name fields)
  | _ => ret Json.VUndefined
  end.

End Effects.

(* ===================================================================== *)
(** ** The upstream API as the pages see it                               *)
(* ===================================================================== *)

Module Upstream.
Import Effects.

(** Modelled from the spec: the [Product] type of [@/types/product], which
    the pages import and which is not among the sources; the fields are the
    ones the data model lists and the pages read. *)
Record Product := {
  id : JS.number;
  title : string;
  description : string;
  category : string;
  brand : string;
  price : JS.number;
  discountPercentage : JS.number;
  rating : JS.number;
  stock : JS.number;
  thumbnail : string;
  images : list string
}.

(** Modelled from the spec: [ProductsResponse] of [@/types/product]; the
    pages read its [products] field only. *)
Record ProductsResponse := { products : list Product }.

(** A [Response]: its status and what [res.json()] resolves or rejects
    with.  [A] is the type the caller gives the parsed body. *)
Record Response (A : Type) := {
  status : Z;
  json : completion A
}.
Arguments status {A} r.
Arguments json {A} r.

(** [res.ok]: the status is in the range 200-299. *)
Definition ok {A} (res : Response A) : bool :=
  (200 <=? status res) && (status res <=? 299).

(** The network: each URL resolves to a response or rejects. *)
Definition network (A : Type) : Type := string -> completion (Response A).

Definition fetch {A} (net : network A) (url : string) : M (Response A) :=
  await (net url).

(** A fetch outcome that is a failure: the request rejects, the response is
    not OK, or its body does not parse. *)
Definition isFailure {A} (o : completion (Response A)) : bool :=
  match o with
  | Throw _ => true
  | Return res => negb (ok res) || isThrow (json res)
  end.

End Upstream.

(* ===================================================================== *)
(** ** The host framework as the pages see it                             *)
(* ===================================================================== *)

Module Next.
Import Effects.

(** How a call of each cache function completes and what [Date.now()]
    reads are decided by the framework; they are inputs of the model. *)
Record framework := {
  updateTagOutcome : string -> completion unit;
  revalidateTagOutcome : string -> string -> completion unit;
  revalidatePathOutcome : Json.value -> completion unit;
  dateNow : JS.number
}.

(** How the framework completes a given call. *)
Definition outcomeOf (fw : framework) (c : cacheCall) : completion unit :=
  match c with
  | UpdateTag tag => updateTagOutcome fw tag
  | RevalidateTag tag profile => revalidateTagOutcome fw tag profile
  | RevalidatePath path => revalidatePathOutcome fw path
  end.

(** A call of a cache function: the invocation is recorded, then the
    function completes as the framework decides. *)
Definition invoke (fw : framework) (c : cacheCall) : M unit :=
  fun w => (outcomeOf fw c, World (console w) (cacheCalls w ++ [c])).

Definition updateTag (fw : framework) (tag : string) : M unit :=
  invoke fw (UpdateTag tag).

Definition revalidateTag (fw : framework) (tag profile : string) : M unit :=
  invoke fw (RevalidateTag tag profile).

Definition revalidatePath (fw : framework) (path : Json.value) : M unit :=
  invoke fw (RevalidatePath path).

(** [notFound()] never returns: it throws the signal the framework turns
    into the not-found page. *)
Definition notFound {A} : M A := throw NotFoundSignal.

(** What the user gets from a page component: the rendered view, the
    not-found page, or the error boundary ([error.tsx]) with what was
    thrown. *)
Inductive pageResult (V : Type) :=
  | Page (view : V)
  | NotFoundPage
  | ErrorBoundary (t : thrown).
Arguments Page {V} view.
Arguments NotFoundPage {V}.
Arguments ErrorBoundary {V} t.

Definition render {V} (c : completion V) : pageResult V :=
  match c with
  | Return v => Page v
  | Throw NotFoundSignal => NotFoundPage
  | Throw t => ErrorBoundary t
  end.

(** [NextResponse.json(body, { status })]. *)
Record NextResponse := {
  responseStatus : Z;
  responseBody : Json.value
}.

Definition NextResponse_json (body : Json.value) (status : Z)
  : NextResponse :=
  {| responseStatus := status; responseBody := body |}.

(** A [NextRequest]: what [request.json()] resolves or rejects with. *)
Record NextRequest := { requestJson : completion Json.value }.

End Next.

(* ===================================================================== *)
(** ** app/products/[id]/page.tsx: the product detail page                *)
(* ===================================================================== *)

Module ProductDetail.
Import Effects Effects.Notations Upstream Next.
Local Open Scope js_scope.

Definition getProduct (net : network Product) (id : string)
  : M (option Product) :=
  tryCatch
    (res <- fetch net ("https://dummyjson.com/products/" ++ id) ;;
     if negb (ok res) then
       if status res =? 404 then ret None
       else throw (ErrorObject "Failed to fetch product")
     else
       product <- await (json res) ;;
       ret (Some product))
    (fun error =>
       consoleError "Error fetching product:" error ;;;
       ret None).

(** [limit: number = 4].  The limit is only ever handed to [slice], which
    reads it as an integer; it is an integer here. *)
Definition defaultLimit : Z := 4.

Definition getRelatedProducts (net : network ProductsResponse)
    (category : string) (currentId : JS.number) (limit : Z)
  : M (list Product) :=
  tryCatch
    (res <- fetch net ("https://dummyjson.com/products/category/"
                         ++ category ++ "?limit=10") ;;
     if negb (ok res) then
       throw (ErrorObject "Failed to fetch related products")
     else
       data <- await (json res) ;;
       ret (JS.slice 0 limit
              (filter (fun p => JS.strictNe (id p) currentId)
                 (products data))))
    (fun error =>
       consoleError "Error fetching related products:" error ;;;
       ret []).

(** [discountPercentage > 0 ? price / (1 - discountPercentage / 100) : null] *)
Definition discountedPrice (product : Product) : option JS.number :=
  if JS.gt (discountPercentage product) 0%float
  then Some (price product / (1 - discountPercentage product / 100))%float
  else None.

(** The price block of the page: the current price, the struck-through
    original price and the savings line. *)
Record priceSection := {
  currentPrice : JS.number;
  originalPrice : option JS.fixedText;
  savings : option JS.fixedText
}.

(** [discountedPrice && ...]: the span is rendered when the value is
    truthy, that is neither [null] nor [0] nor [NaN]. *)
Definition renderOriginalPrice (discounted : option JS.number)
  : option JS.fixedText :=
  match discounted with
  | Some x => if JS.truthyNumber x then Some (JS.toFixed x 2) else None
  | None => None
  end.

(** [discountedPrice! - product.price]; [null] would count as [0]. *)
Definition savingsAmount (discounted : option JS.number) (product : Product)
  : JS.number :=
  match discounted with
  | Some x => (x - price product)%float
  | None => (0 - price product)%float
  end.

Definition renderPriceSection (product : Product) : priceSection :=
  let discounted := discountedPrice product in
  {| currentPrice := price product;
     originalPrice := renderOriginalPrice discounted;
     savings :=
       if JS.gt (discountPercentage product) 0%float
       then Some (JS.toFixed (savingsAmount discounted product) 2)
       else None |}.

Record view := {
  shown : Product;
  prices : priceSection;
  relatedProducts : list Product
}.

Definition ProductDetailPage (net : network Product)
    (netRelated : network ProductsResponse) (id : string) : M view :=
  product <- getProduct net id ;;
  match product with
  | None => notFound
  | Some product =>
      related <- getRelatedProducts netRelated (category product)
                   (Upstream.id product) defaultLimit ;;
      ret {| shown := product;
             prices := renderPriceSection product;
             relatedProducts := related |}
  end.

End ProductDetail.

(* ===================================================================== *)
(** ** app/page.tsx: the landing page                                     *)
(* ===================================================================== *)

Module Home.
Import Effects Effects.Notations Upstream Next.
Local Open Scope js_scope.

Definition getFeaturedProducts (net : network ProductsResponse)
  : M (list Product) :=
  tryCatch
    (res <- fetch net "https://dummyjson.com/products?limit=8" ;;
     if negb (ok res) then throw (ErrorObject "Failed to fetch products")
     else
       data <- await (json res) ;;
       ret (products data))
    (fun error =>
       consoleError "Error fetching products:" error ;;;
       ret []).

(** The footer of a product card: the price, and the original price when
    [discountPercentage > 0]. *)
Record productFooter := {
  cardPrice : JS.number;
  cardOriginalPrice : option JS.fixedText
}.

Definition renderFooter (product : Product) : productFooter :=
  {| cardPrice := price product;
     cardOriginalPrice :=
       if JS.gt (discountPercentage product) 0%float
       then
         Some (JS.toFixed
                 (price product / (1 - discountPercentage product / 100))%float
                 2)
       else None |}.

Definition HomePage (net : network ProductsResponse) : M (list productFooter) :=
  featuredProducts <- getFeaturedProducts net ;;
  ret (map renderFooter featuredProducts).

End Home.

(* ===================================================================== *)
(** ** app/products/page.tsx: the catalog page                            *)
(* ===================================================================== *)

Module Catalog.
Import Effects Effects.Notations Upstream Next.
Local Open Scope js_scope.

(** The query string of the page; each parameter may be absent. *)
Record searchParams := {
  category : option string;
  search : option string;
  minPrice : option string;
  maxPrice : option string
}.

Definition getAllProducts (net : network ProductsResponse)
  : M (list Product) :=
  tryCatch
    (res <- fetch net "https://dummyjson.com/products?limit=100" ;;
     if negb (ok res) then throw (ErrorObject "Failed to fetch products")
     else
       data <- await (json res) ;;
       ret (products data))
    (fun error =>
       consoleError "Error fetching products:" error ;;;
       ret []).

(** The body is inspected as it comes: an array of strings is returned as
    it is, an array of objects is mapped to the [slug] of each. *)
Definition getCategories (net : network Json.value) : M (list Json.value) :=
  tryCatch
    (res <- fetch net "https://dummyjson.com/products/categories" ;;
     if negb (ok res) then throw (ErrorObject "Failed to fetch categories")
     else
       data <- await (json res) ;;
       match data with
       | Json.VArray (first :: rest) =>
           if String.eqb (Json.typeof first) "string" then
             ret (first :: rest)
           else if String.eqb (Json.typeof first) "object" then
             slug <- getProperty first "slug" ;;
             if Json.truthy slug
             then mapM (fun cat => getProperty cat "slug") (first :: rest)
             else ret []
           else ret []
       | _ => ret []
       end)
    (fun error =>
       consoleError "Error fetching categories:" error ;;;
       ret []).

(** The four predicates of the server-side filtering. *)
Definition matchesCategory (category : string) (p : Product) : bool :=
  String.eqb (JS.toLowerCase (Upstream.category p)) (JS.toLowerCase category).

Definition matchesSearch (search : string) (p : Product) : bool :=
  let searchLower := JS.toLowerCase search in
  JS.includes (JS.toLowerCase (title p)) searchLower
  || JS.includes (JS.toLowerCase (description p)) searchLower
  || JS.includes (JS.toLowerCase (brand p)) searchLower.

Definition atLeast (minPrice : string) (p : Product) : bool :=
  JS.ge (price p) (JS.parseFloat minPrice).

Definition atMost (maxPrice : string) (p : Product) : bool :=
  JS.le (price p) (JS.parseFloat maxPrice).

(** [if (param) { filteredProducts = filteredProducts.filter(keep) }] *)
Definition filterIf (param : option string) (keep : string -> Product -> bool)
    (filteredProducts : list Product) : list Product :=
  match param with
  | Some s =>
      if JS.truthyString s then filter (keep s) filteredProducts
      else filteredProducts
  | None => filteredProducts
  end.

Definition filterProducts (params : searchParams) (allProducts : list Product)
  : list Product :=
  let filteredProducts := allProducts in
  let filteredProducts :=
    filterIf (category params) matchesCategory filteredProducts in
  let filteredProducts :=
    filterIf (search params) matchesSearch filteredProducts in
  let filteredProducts :=
    filterIf (minPrice params) atLeast filteredProducts in
  let filteredProducts :=
    filterIf (maxPrice params) atMost filteredProducts in
  filteredProducts.

Record view := {
  categories : list Json.value;
  filteredProducts : list Product
}.

Definition ProductsPage (net : network ProductsResponse)
    (netCategories : network Json.value) (params : searchParams) : M view :=
  allProducts <- getAllProducts net ;;
  categories <- getCategories netCategories ;;
  ret {| categories := categories;
         filteredProducts := filterProducts params allProducts |}.

End Catalog.

(* ===================================================================== *)
(** ** app/bargains/actions.ts: the server action                         *)
(* ===================================================================== *)

Module Bargains.
Import Effects Next.

Definition revalidateBargains (fw : framework) (expire : bool) : M unit :=
  if expire then updateTag fw "bargains"
  else revalidateTag fw "bargains" "max".

End Bargains.

(* ===================================================================== *)
(** ** app/api/revalidate/route.ts: the revalidation endpoint             *)
(* ===================================================================== *)

Module RevalidateRoute.
Import Effects Effects.Notations Next.
Local Open Scope js_scope.

(** [error instanceof Error ? error.message : 'Unknown error'] *)
Definition errorText (error : thrown) : string :=
  match error with
  | ErrorObject message => message
  | NotFoundSignal => "NEXT_HTTP_ERROR_FALLBACK;404"
  | OtherValue => "Unknown error"
  end.

Definition POST (fw : framework) (request : NextRequest) : M NextResponse :=
  tryCatch
    (body <- await (requestJson request) ;;
     path <- getProperty body "path" ;;
     if negb (Json.truthy path) then
       ret (NextResponse_json
              (Json.VObject [("message", Json.VString "Path is required")])
              400)
     else
       revalidatePath fw path ;;;
       ret (NextResponse_json
              (Json.VObject [("revalidated", Json.VBool true);
                             ("path", path);
                             ("now", Json.VNumber (dateNow fw))])
              200))
    (fun error =>
       ret (NextResponse_json
              (Json.VObject [("message", Json.VString "Error revalidating");
                             ("error", Json.VString (errorText error))])
              500)).

End RevalidateRoute.

(* ===================================================================== *)
(** ** docs/cache.md: the cache-life status table                         *)
(* ===================================================================== *)

Module CacheLife.

(** [cacheLife({ stale, revalidate, expire })], in seconds. *)
Record config := {
  stale : Z;
  revalidate : Z;
  expire : Z
}.

Inductive status := Fresh | Stale | Expired.

(** The column "When it happens" of the status table, row by row. *)
Definition whenItHappens (s : status) (c : config) (age : Z) : bool :=
  match s with
  | Fresh => age <? revalidate c
  | Stale => (revalidate c <=? age) && (age <? revalidate c + stale c)
  | Expired => expire c <=? age
  end.



(** The configuration the document uses as its example, and the one of the
    streaming page's product list. *)
Definition exampleConfig : config :=
  {| stale := 60; revalidate := 300; expire := 1800 |}.


(** The "User Entry Timeline" of the document, for its example
    configuration: access time, age of the cached data and the status the
    document gives the row. *)
Definition timeline : list (Z * Z * status) :=
  [(0, 0, Fresh); (100, 100, Fresh); (300, 300, Stale); (320, 320, Stale);
   (360, 360, Fresh); (900, 900, Fresh); (1800, 1800, Expired);
   (1820, 20, Fresh)].

(** The rows of the timeline whose status is not the one the status table
    gives their age. *)
Definition offTable (c : config) (rows : list (Z * Z * status))
  : list (Z * Z * status) :=
  filter (fun '(_, age, s) => negb (whenItHappens s c age)) rows.

End CacheLife.

(* ===================================================================== *)
(** ** The framework's cache, as the description states its contract      *)
(* ===================================================================== *)

Module CacheRuntime.
Import Effects CacheLife.

(** A cached entry: the tags and the path it is filed under, its age in
    seconds and the state the runtime holds it in. *)
Record entry := {
  entryTags : list string;
  entryPath : string;
  entryAge : Z;
  entryState : status
}.

Definition withState (e : entry) (s : status) : entry :=
  {| entryTags := entryTags e;
     entryPath := entryPath e;
     entryAge := entryAge e;
     entryState := s |}.

Definition tagged (tag : string) (e : entry) : bool :=
  existsb (String.eqb tag) (entryTags e).

Definition filedUnder (path : Json.value) (e : entry) : bool :=
  match path with
  | Json.VString p => String.eqb p (entryPath e)
  | _ => false
  end.

(** Marking an entry stale: a fresh entry becomes stale, a stale or expired
    one stays as it is. *)
Definition markStale (s : status) : status :=
  match s with
  | Fresh => Stale
  | Stale => Stale
  | Expired => Expired
  end.

(** Modelled from the spec: the effect of the three cache functions on an
    entry, which belongs to the framework and is not among the sources.
    The action's two branches either force immediate expiry ([updateTag])
    or mark the tagged entry stale ([revalidateTag] with a profile);
    invalidating a path expires what is filed under it.  None of them
    reads the entry's age. *)
Definition effectOf (c : cacheCall) (e : entry) : entry :=
  match c with
  | UpdateTag tag =>
      if tagged tag e then withState e Expired else e
  | RevalidateTag tag _ =>
      if tagged tag e then withState e (markStale (entryState e)) else e
  | RevalidatePath path =>
      if filedUnder path e then withState e Expired else e
  end.

(** A call that the framework completes normally takes effect; one that
    throws leaves the entry as it was. *)
Definition applyCall (fw : Next.framework) (c : cacheCall) (e : entry)
  : entry :=
  match Next.outcomeOf fw c with
  | Return _ => effectOf c e
  | Throw _ => e
  end.

Definition applyCalls (fw : Next.framework) (calls : list cacheCall)
    (e : entry) : entry :=
  fold_left (fun e c => applyCall fw c e) calls e.

(** Modelled from the spec: how the next request for an entry is served in
    each state of the cache-lifecycle contract. *)
Inductive service :=
  | ServeCached
  | ServeCachedThenRecompute
  | RecomputeBeforeResponding.

Definition nextFetch (e : entry) : service :=
  match entryState e with
  | Fresh => ServeCached
  | Stale => ServeCachedThenRecompute
  | Expired => RecomputeBeforeResponding
  end.

(** The entry after a computation has run from an empty world. *)
Definition after {A} (fw : Next.framework) (m : M A) (e : entry) : entry :=
  applyCalls fw (cacheCalls (snd (m emptyWorld))) e.

End CacheRuntime.

(* ===================================================================== *)
(** ** Concrete inputs used by the examples below                         *)
(* ===================================================================== *)

Module Samples.
Import Effects Upstream Next.

Definition item (n : JS.number) (name cat : string) (p d : JS.number)
  : Product :=
  {| id := n; title := name; description := name; category := cat;
     brand := "Acme"; price := p; discountPercentage := d;
     rating := 4.5%float; stock := 20%float;
     thumbnail := "thumb.png"; images := ["a.png"] |}.

Definition mascara : Product :=
  item 1%float "Essence Mascara" "beauty" 10%float 30%float.
Definition lamp : Product :=
  item 2%float "Desk Lamp" "furniture" 35%float 0%float.
Definition chair : Product :=
  item 3%float "Office Chair" "furniture" 120%float 15%float.

Definition shelf : list Product := [mascara; lamp; chair].

(** A framework whose cache functions all complete normally. *)
Definition quiet : framework :=
  {| updateTagOutcome := fun _ => Return tt;
     revalidateTagOutcome := fun _ _ => Return tt;
     revalidatePathOutcome := fun _ => Return tt;
     dateNow := 1700000000000%float |}.

Definition respond {A} (code : Z) (body : completion A) : network A :=
  fun _ => Return {| status := code; json := body |}.

Definition offline {A} : network A :=
  fun _ => Throw (ErrorObject "fetch failed").


Definition bargainsEntry (age : Z) (s : CacheLife.status)
  : CacheRuntime.entry :=
  {| CacheRuntime.entryTags := ["bargains"];
     CacheRuntime.entryPath := "/bargains";
     CacheRuntime.entryAge := age;
     CacheRuntime.entryState := s |}.

End Samples.

(* ===================================================================== *)
(** ** Vocabulary of the statements                                       *)
(* ===================================================================== *)

Module Terms.
Import Effects Upstream Next Catalog RevalidateRoute.

(** *** The catalog query *)

(** What one query parameter keeps: everything when it is absent or empty,
    otherwise what its predicate keeps. *)
Definition keeps (param : option string) (keep : string -> Product -> bool)
    (p : Product) : bool :=
  match param with
  | Some s => if JS.truthyString s then keep s p else true
  | None => true
  end.

(** The query with all parameters but one removed. *)
Definition onlyCategory (q : searchParams) : searchParams :=
  {| category := category q; search := None;
     minPrice := None; maxPrice := None |}.
Definition onlySearch (q : searchParams) : searchParams :=
  {| category := None; search := search q;
     minPrice := None; maxPrice := None |}.
Definition onlyMinPrice (q : searchParams) : searchParams :=
  {| category := None; search := None;
     minPrice := minPrice q; maxPrice := None |}.
Definition onlyMaxPrice (q : searchParams) : searchParams :=
  {| category := None; search := None;
     minPrice := None; maxPrice := maxPrice q |}.

(** A value in which [parseFloat] finds no number: after the leading white
    space no prefix of it is a decimal literal. *)
Definition noNumber (s : string) : Prop :=
  JS.decimalPrefix (JS.trimStart s) = None.

(** *** Worlds *)

(** The world after one more [console.error] line. *)
Definition logged (w : world) (label : string) (error : thrown) : world :=
  World (console w ++ [(label, error)]) (cacheCalls w).

(** The world after one more call of a cache function. *)
Definition called (w : world) (c : cacheCall) : world :=
  World (console w) (cacheCalls w ++ [c]).

(** *** The upstream URLs *)

(** The URL [getProduct] fetches for an identifier, and the fixed URLs of
    the three list fetchers. *)
Definition productUrl (id : string) : string :=
  "https://dummyjson.com/products/" ++ id.

Definition featuredUrl : string := "https://dummyjson.com/products?limit=8".
Definition allProductsUrl : string :=
  "https://dummyjson.com/products?limit=100".
Definition categoriesUrl : string :=
  "https://dummyjson.com/products/categories".

(** *** The responses of the revalidation endpoint *)

(** The three responses [POST] can give. *)
Definition pathRequired : NextResponse :=
  NextResponse_json
    (Json.VObject [("message", Json.VString "Path is required")]) 400.

Definition revalidated (fw : framework) (path : Json.value) : NextResponse :=
  NextResponse_json
    (Json.VObject [("revalidated", Json.VBool true);
                   ("path", path);
                   ("now", Json.VNumber (dateNow fw))]) 200.

Definition errorRevalidating (error : thrown) : NextResponse :=
  NextResponse_json
    (Json.VObject [("message", Json.VString "Error revalidating");
                   ("error", Json.VString (errorText error))]) 500.

(** The body has a property called [path]. *)
Definition hasPath (body : Json.value) : bool :=
  match body with
  | Json.VObject fields =>
      existsb (fun field => String.eqb (fst field) "path") fields
  | _ => false
  end.

(** A request whose body is [{ "path": p }]. *)
Definition pathRequest (p : string) : NextRequest :=
  {| requestJson := Return (Json.VObject [("path", Json.VString p)]) |}.

(** *** Discounts *)

(** [price / (1 - discountPercentage / 100)] *)
Definition original (product : Product) : JS.number :=
  (price product / (1 - discountPercentage product / 100))%float.

End Terms.

(* ===================================================================== *)
(** ** app/products/[id]/page.tsx: the metadata of the detail page        *)
(* ===================================================================== *)

Module DetailParts.
Import Effects Effects.Notations Upstream Next.
Local Open Scope js_scope.

Record openGraphData := {
  ogTitle : string;
  ogDescription : string;
  ogImages : list string
}.

Record metadata := {
  metaTitle : string;
  metaDescription : string;
  openGraph : option openGraphData
}.

Definition generateMetadata (net : network Product) (id : string)
  : M metadata :=
  product <- ProductDetail.getProduct net id ;;
  match product with
  | None =>
      ret {| metaTitle := "Product Not Found | ShopFlow";
             metaDescription :=
               "The product you're looking for doesn't exist.";
             openGraph := None |}
  | Some product =>
      ret {| metaTitle := title product ++ " | ShopFlow";
             metaDescription := description product;
             openGraph :=
               Some {| ogTitle := title product;
                       ogDescription := description product;
                       ogImages := [thumbnail product] |} |}
  end.

End DetailParts.

(* ===================================================================== *)
(** ** Vocabulary of the further statements                               *)
(* ===================================================================== *)

Module MoreTerms.
Import Upstream Catalog Terms.

(** *** Order of the finite binary64 numbers *)

(** Finite numbers of one sign compare by exponent, then by mantissa. *)
Definition lexLe (e1 : Z) (m1 : positive) (e2 : Z) (m2 : positive) : Prop :=
  e1 < e2 \/ (e1 = e2 /\ (m1 <= m2)%positive).

(** [x <= y] on the specification side. *)
Definition SFle (x y : spec_float) : Prop := SFleb x y = true.

(** *** The catalog query *)

Definition withMinPrice (q : searchParams) (lo : string) : searchParams :=
  {| category := category q; search := search q;
     minPrice := Some lo; maxPrice := maxPrice q |}.
Definition withMaxPrice (q : searchParams) (hi : string) : searchParams :=
  {| category := category q; search := search q;
     minPrice := minPrice q; maxPrice := Some hi |}.

(** What the whole query keeps. *)
Definition accepts (q : searchParams) (p : Product) : bool :=
  keeps (category q) matchesCategory p
  && keeps (search q) matchesSearch p
  && keeps (minPrice q) atLeast p
  && keeps (maxPrice q) atMost p.

End MoreTerms.

(* ===================================================================== *)
(** * Properties                                                          *)
(* ===================================================================== *)

(** ** Lists and strings: shared facts *)

Lemma truthyString_nonempty (s : string) :
  s <> "" -> JS.truthyString s = true.
Proof.
  destruct s; [congruence | reflexivity].
Qed.


Section ListFacts.
Context {A : Type}.





Lemma filter_filter (f g : A -> bool) (l : list A) :
  filter g (filter f l) = filter (fun x => f x && g x) l.
Proof.
  induction l as [| x l IH]; cbn; [reflexivity |].
  destruct (f x); cbn; [destruct (g x) |]; now rewrite IH.
Qed.

Lemma filter_none (f : A -> bool) (l : list A) :
  (forall x, f x = false) -> filter f l = [].
Proof.
  intro H. induction l as [| x l IH]; cbn; [reflexivity |].
  now rewrite H.
Qed.

End ListFacts.

(** ** The cache-life status table *)

Module CacheLifeFacts.
Import CacheLife.






(** The document's timeline agrees with its table except at the two rows it
    labels Fresh "after regeneration" while giving their ages as 360 and
    900. *)
Example timeline_against_table :
  offTable exampleConfig timeline = [(360, 360, Fresh); (900, 900, Fresh)].
Proof. reflexivity. Qed.

End CacheLifeFacts.

(** ** The catalog filter *)

Module CatalogFacts.
Import Upstream Catalog Terms.

Lemma filterIf_keeps param keep (l : list Product) :
  filterIf param keep l = filter (keeps param keep) l.
Proof.
  unfold filterIf, keeps. destruct param as [s |].
  - destruct (JS.truthyString s); [reflexivity |].
    symmetry. apply filter_true.
  - symmetry. apply filter_true.
Qed.

Lemma filterProducts_filter (q : searchParams) (l : list Product) :
  filterProducts q l =
    filter (fun p => keeps (category q) matchesCategory p
                     && keeps (search q) matchesSearch p
                     && keeps (minPrice q) atLeast p
                     && keeps (maxPrice q) atMost p) l.
Proof.
  unfold filterProducts. rewrite !filterIf_keeps.
  rewrite (filter_filter (keeps (category q) matchesCategory)).
  rewrite (filter_filter _ (keeps (minPrice q) atLeast)).
  rewrite (filter_filter _ (keeps (maxPrice q) atMost)).
  reflexivity.
Qed.

Lemma filterProducts_In (q : searchParams) (l : list Product) (p : Product) :
  In p (filterProducts q l) <->
  In p l /\
  keeps (category q) matchesCategory p = true /\
  keeps (search q) matchesSearch p = true /\
  keeps (minPrice q) atLeast p = true /\
  keeps (maxPrice q) atMost p = true.
Proof.
  rewrite filterProducts_filter, filter_In, !andb_true_iff. tauto.
Qed.

(** C2.  For every fetched list and every combination of the four query
    parameters, applying the provided filters in sequence gives the
    intersection of what each filter gives alone on the full list: each
    single filter keeps the products its predicate accepts, the page keeps,
    in the order of the fetched list, the products all four accept, and a
    product is in the page's result exactly when it is in each of the four
    single results. *)
Theorem filters_compose (q : searchParams) (allProducts : list Product) :
  filterProducts (onlyCategory q) allProducts
    = filter (keeps (category q) matchesCategory) allProducts /\
  filterProducts (onlySearch q) allProducts
    = filter (keeps (search q) matchesSearch) allProducts /\
  filterProducts (onlyMinPrice q) allProducts
    = filter (keeps (minPrice q) atLeast) allProducts /\
  filterProducts (onlyMaxPrice q) allProducts
    = filter (keeps (maxPrice q) atMost) allProducts /\
  filterProducts q allProducts
    = filter (fun p => keeps (category q) matchesCategory p
                       && keeps (search q) matchesSearch p
                       && keeps (minPrice q) atLeast p
                       && keeps (maxPrice q) atMost p) allProducts /\
  forall p,
    In p (filterProducts q allProducts) <->
    In p (filterProducts (onlyCategory q) allProducts) /\
    In p (filterProducts (onlySearch q) allProducts) /\
    In p (filterProducts (onlyMinPrice q) allProducts) /\
    In p (filterProducts (onlyMaxPrice q) allProducts).
Proof.
  repeat split.
  1-4: rewrite filterProducts_filter; apply filter_ext; intro p; cbn;
       rewrite ?andb_true_r; reflexivity.
  - apply filterProducts_filter.
  - apply filterProducts_In in H. apply filterProducts_In. cbn. tauto.
  - apply filterProducts_In in H. apply filterProducts_In. cbn. tauto.
  - apply filterProducts_In in H. apply filterProducts_In. cbn. tauto.
  - apply filterProducts_In in H. apply filterProducts_In. cbn. tauto.
  - intros (H1 & H2 & H3 & H4).
    apply filterProducts_In in H1, H2, H3, H4. apply filterProducts_In.
    cbn in H1, H2, H3, H4. tauto.
Qed.

End CatalogFacts.

Example catalog_filter_run :
  Catalog.filterProducts
    {| Catalog.category := Some "Furniture"; Catalog.search := Some "DESK";
       Catalog.minPrice := Some "10"; Catalog.maxPrice := Some "99.5" |}
    Samples.shelf = [Samples.lamp].
Proof. vm_compute. reflexivity. Qed.

(** ** Comparisons of binary64 numbers *)

Module NumberFacts.

Lemma Prim2SF_nan : Prim2SF nan = S754_nan.
Proof. reflexivity. Qed.

(** No number is below, above or equal to [NaN]. *)
Lemma leb_nan_r (x : float) : (x <=? nan)%float = false.
Proof.
  rewrite leb_spec, Prim2SF_nan. unfold SFleb, SFcompare.
  destruct (Prim2SF x); reflexivity.
Qed.

Lemma leb_nan_l (x : float) : (nan <=? x)%float = false.
Proof.
  rewrite leb_spec, Prim2SF_nan. reflexivity.
Qed.

Lemma ge_nan (x : JS.number) : JS.ge x nan = false.
Proof. apply leb_nan_l. Qed.

Lemma le_nan (x : JS.number) : JS.le x nan = false.
Proof. apply leb_nan_r. Qed.

(** A number equal to zero (of either sign) is not above zero. *)
Lemma zero_not_positive (x : JS.number) :
  is_zero x = true -> JS.gt x 0%float = false.
Proof.
  unfold is_zero, JS.gt. rewrite eqb_spec, ltb_spec.
  change (Prim2SF zero) with (S754_zero false).
  change (Prim2SF 0%float) with (S754_zero false).
  unfold SFeqb, SFltb, SFcompare.
  destruct (Prim2SF x) as [s | s | | s m e]; try reflexivity;
    destruct s; discriminate.
Qed.

End NumberFacts.

(** ** Malformed price filters *)

Module PriceFilterFacts.
Import Upstream Catalog Terms CatalogFacts.

Lemma parseFloat_noNumber (s : string) :
  noNumber s -> JS.parseFloat s = nan.
Proof.
  unfold noNumber, JS.parseFloat. intro H. now rewrite H.
Qed.

(** C10, as the page has it.  For every non-empty [minPrice] or [maxPrice]
    value in which [parseFloat] finds no number, the value parses to [NaN],
    the price comparison against it is false for every product, and the
    page's result is empty.  (An empty value is skipped by the guard
    [if (minPrice)], and a value that starts with a decimal literal is read
    as that literal.) *)
Theorem malformed_price_yields_nothing
    (s : string) (q : searchParams) (allProducts : list Product) :
  s <> "" ->
  noNumber s ->
  minPrice q = Some s \/ maxPrice q = Some s ->
  JS.parseFloat s = nan /\
  (forall p, atLeast s p = false /\ atMost s p = false) /\
  filterProducts q allProducts = [].
Proof.
  intros Hne Hnn Hq.
  pose proof (parseFloat_noNumber s Hnn) as Hnan.
  assert (Hcmp : forall p, atLeast s p = false /\ atMost s p = false).
  { intro p. unfold atLeast, atMost. rewrite Hnan.
    split; [apply NumberFacts.ge_nan | apply NumberFacts.le_nan]. }
  repeat split; try assumption; try apply Hcmp.
  rewrite filterProducts_filter. apply filter_none. intro p.
  destruct (Hcmp p) as [Hmin Hmax].
  destruct Hq as [Hq | Hq]; rewrite Hq; cbn [keeps];
    rewrite (truthyString_nonempty s Hne), ?Hmin, ?Hmax;
    rewrite ?andb_false_r; reflexivity.
Qed.

Lemma malformed_price_yields_nothing_witness :
  "cheap" <> "" /\
  noNumber "cheap" /\
  JS.parseFloat "cheap" = nan /\
  filterProducts
    {| category := None; search := None;
       minPrice := Some "cheap"; maxPrice := None |}
    Samples.shelf = [].
Proof.
  assert (Hne : "cheap" <> "") by discriminate.
  assert (Hnn : noNumber "cheap") by reflexivity.
  destruct (malformed_price_yields_nothing "cheap"
              {| category := None; search := None;
                 minPrice := Some "cheap"; maxPrice := None |}
              Samples.shelf Hne Hnn (or_introl eq_refl))
    as (Hnan & _ & Hempty).
  repeat split; assumption.
Defined.

(** The empty string holds no number, yet a query with [minPrice] (or
    [maxPrice]) empty gets the whole list: the filter is skipped. *)
Lemma empty_price_is_ignored :
  noNumber "" /\
  filterProducts
    {| category := None; search := None;
       minPrice := Some ""; maxPrice := None |}
    Samples.shelf = Samples.shelf /\
  filterProducts
    {| category := None; search := None;
       minPrice := None; maxPrice := Some "" |}
    Samples.shelf = Samples.shelf /\
  Samples.shelf <> [].
Proof.
  repeat split; discriminate.
Qed.

(** A value that only starts with a number is filtered by that number. *)
Example price_with_trailing_text :
  JS.parseFloat "12abc" = 12%float /\
  filterProducts
    {| category := None; search := None;
       minPrice := Some "12abc"; maxPrice := None |}
    Samples.shelf = [Samples.lamp; Samples.chair].
Proof. split; vm_compute; reflexivity. Qed.

End PriceFilterFacts.

(** ** Fetch helpers: what they return and what they log *)

Module FetchFacts.
Import Effects Upstream Next Terms.

(** A [try] whose handler logs and returns a default never throws. *)
Lemma tryCatch_default {A} (body : M A) (label : string) (default : A)
    (w : world) :
  tryCatch body
    (fun error => bind (consoleError label error) (fun _ => ret default)) w
  = match body w with
    | (Return a, w') => (Return a, w')
    | (Throw t, w') => (Return default, logged w' label t)
    end.
Proof.
  unfold tryCatch. destruct (body w) as [[a | t] w']; reflexivity.
Qed.

Lemma logged_differs (w : world) (label : string) (error : thrown) :
  console (logged w label error) <> console w.
Proof.
  cbn. intro H. apply (f_equal (@List.length _)) in H.
  rewrite length_app in H. cbn in H. lia.
Qed.

End FetchFacts.

(** ** Related products *)

Module RelatedFacts.
Import Effects Upstream Next ProductDetail Terms FetchFacts.




Example related_products_run :
  getRelatedProducts
    (Samples.respond 200 (Return {| products := Samples.shelf |}))
    "furniture" 2%float defaultLimit emptyWorld
  = (Return [Samples.mascara; Samples.chair], emptyWorld).
Proof. vm_compute. reflexivity. Qed.


End RelatedFacts.

(** ** The missing product *)

Module NotFoundFacts.
Import Effects Upstream Next ProductDetail Terms FetchFacts.

Lemma getProduct_404 (net : network Product) (id : string) (w : world)
    (res : Response Product) :
  net (productUrl id) = Return res ->
  status res = 404 ->
  getProduct net id w = (Return None, w).
Proof.
  intros Hnet H404. unfold getProduct. rewrite tryCatch_default.
  unfold bind, fetch, await. fold (productUrl id). rewrite Hnet.
  unfold ok. rewrite H404. reflexivity.
Qed.

Lemma getProduct_other_failure (net : network Product) (id : string)
    (w : world) :
  isFailure (net (productUrl id)) = true ->
  (forall res, net (productUrl id) = Return res -> status res <> 404) ->
  exists error,
    getProduct net id w
    = (Return None, logged w "Error fetching product:" error).
Proof.
  intros Hfail Hnot. unfold getProduct. rewrite tryCatch_default.
  unfold bind, fetch, await, isFailure in *. fold (productUrl id).
  destruct (net (productUrl id)) as [res | t]; [| now exists t].
  specialize (Hnot res eq_refl).
  destruct (ok res); cbn in *.
  - destruct (json res) as [a | t]; [discriminate | now exists t].
  - destruct (Z.eqb_spec (status res) 404) as [E | E]; [contradiction |].
    now eexists.
Qed.

(** C3.  For every product identifier whose request the upstream API
    answers with status 404: [getProduct] returns [null] and logs nothing,
    and the page raises the not-found signal, which the framework renders
    as the not-found page and not as the error boundary.  The case is told
    apart from the other fetch failures in that those go through the
    [catch] block and are logged with [console.error] before [null] is
    returned. *)
Theorem missing_product_is_not_found (net : network Product)
    (netRelated : network ProductsResponse) (id : string) (w : world)
    (res : Response Product) :
  net (productUrl id) = Return res ->
  status res = 404 ->
  getProduct net id w = (Return None, w) /\
  ProductDetailPage net netRelated id w = (Throw NotFoundSignal, w) /\
  render (fst (ProductDetailPage net netRelated id w)) = NotFoundPage /\
  (forall net' : network Product,
     isFailure (net' (productUrl id)) = true ->
     (forall res', net' (productUrl id) = Return res' -> status res' <> 404) ->
     exists error,
       getProduct net' id w
       = (Return None, logged w "Error fetching product:" error) /\
       console (logged w "Error fetching product:" error) <> console w).
Proof.
  intros Hnet H404.
  pose proof (getProduct_404 net id w res Hnet H404) as Hget.
  assert (Hpage : ProductDetailPage net netRelated id w
                  = (Throw NotFoundSignal, w)).
  { unfold ProductDetailPage, bind. rewrite Hget. reflexivity. }
  repeat split; try assumption.
  - rewrite Hpage. reflexivity.
  - intros net' Hfail Hnot.
    destruct (getProduct_other_failure net' id w Hfail Hnot) as [error He].
    exists error. split; [exact He | apply logged_differs].
Qed.

Lemma missing_product_is_not_found_witness :
  getProduct (Samples.respond 404 (Throw OtherValue)) "999" emptyWorld
    = (Return None, emptyWorld) /\
  render (fst (ProductDetailPage (Samples.respond 404 (Throw OtherValue))
                 Samples.offline "999" emptyWorld)) = NotFoundPage.
Proof.
  destruct (missing_product_is_not_found
              (Samples.respond 404 (Throw OtherValue)) Samples.offline
              "999" emptyWorld
              {| status := 404; json := Throw OtherValue |}
              eq_refl eq_refl)
    as (Hget & _ & Hpage & _).
  split; assumption.
Defined.

Example server_error_is_logged :
  getProduct (Samples.respond 500 (Throw OtherValue)) "1" emptyWorld
  = (Return None,
     World [("Error fetching product:", ErrorObject "Failed to fetch product")]
       []).
Proof. reflexivity. Qed.

End NotFoundFacts.

(** ** Fetch failures *)

Module FailureFacts.
Import Effects Upstream Next Terms FetchFacts.

Lemma getFeaturedProducts_failure (net : network ProductsResponse)
    (w : world) :
  isFailure (net featuredUrl) = true ->
  exists error,
    Home.getFeaturedProducts net w
    = (Return [], logged w "Error fetching products:" error).
Proof.
  unfold Home.getFeaturedProducts. rewrite tryCatch_default.
  unfold isFailure, bind, fetch, await. fold featuredUrl.
  destruct (net featuredUrl) as [res | t]; [| intros _; now exists t].
  destruct (ok res); cbn.
  - destruct (json res) as [a | t]; [discriminate | intros _; now exists t].
  - intros _. now eexists.
Qed.

Lemma getAllProducts_failure (net : network ProductsResponse) (w : world) :
  isFailure (net allProductsUrl) = true ->
  exists error,
    Catalog.getAllProducts net w
    = (Return [], logged w "Error fetching products:" error).
Proof.
  unfold Catalog.getAllProducts. rewrite tryCatch_default.
  unfold isFailure, bind, fetch, await. fold allProductsUrl.
  destruct (net allProductsUrl) as [res | t]; [| intros _; now exists t].
  destruct (ok res); cbn.
  - destruct (json res) as [a | t]; [discriminate | intros _; now exists t].
  - intros _. now eexists.
Qed.

Lemma getCategories_failure (net : network Json.value) (w : world) :
  isFailure (net categoriesUrl) = true ->
  exists error,
    Catalog.getCategories net w
    = (Return [], logged w "Error fetching categories:" error).
Proof.
  unfold Catalog.getCategories. rewrite tryCatch_default.
  unfold isFailure, bind at 1, fetch, await. fold categoriesUrl.
  destruct (net categoriesUrl) as [res | t]; [| intros _; now exists t].
  destruct (ok res); cbn.
  - unfold bind. destruct (json res) as [a | t];
      [discriminate | intros _; now exists t].
  - intros _. now eexists.
Qed.

(** The three fetchers complete normally whatever the network does. *)
Lemma fetchers_never_throw :
  (forall net w, exists l w',
     Home.getFeaturedProducts net w = (Return l, w')) /\
  (forall net w, exists l w',
     Catalog.getAllProducts net w = (Return l, w')) /\
  (forall net w, exists l w',
     Catalog.getCategories net w = (Return l, w')).
Proof.
  repeat split; intros net w;
    [unfold Home.getFeaturedProducts | unfold Catalog.getAllProducts
    | unfold Catalog.getCategories];
    rewrite tryCatch_default;
    match goal with
    | |- context [match ?b w with _ => _ end] =>
        destruct (b w) as [[a | t] w']
    end; eauto.
Qed.

(** C6.  For every upstream fetch outcome that is a failure (the request
    rejects, the response is not OK, or the body does not parse), each of
    [getFeaturedProducts], [getAllProducts] and [getCategories] catches it,
    logs it and returns the empty list; and whatever the outcome, none of
    the three completes with an exception. *)
Theorem fetch_failures_give_empty_list :
  (forall (net : network ProductsResponse) w,
     isFailure (net featuredUrl) = true ->
     exists error,
       Home.getFeaturedProducts net w
       = (Return [], logged w "Error fetching products:" error)) /\
  (forall (net : network ProductsResponse) w,
     isFailure (net allProductsUrl) = true ->
     exists error,
       Catalog.getAllProducts net w
       = (Return [], logged w "Error fetching products:" error)) /\
  (forall (net : network Json.value) w,
     isFailure (net categoriesUrl) = true ->
     exists error,
       Catalog.getCategories net w
       = (Return [], logged w "Error fetching categories:" error)) /\
  (forall net w, exists l w',
     Home.getFeaturedProducts net w = (Return l, w')) /\
  (forall net w, exists l w',
     Catalog.getAllProducts net w = (Return l, w')) /\
  (forall net w, exists l w',
     Catalog.getCategories net w = (Return l, w')).
Proof.
  split; [exact getFeaturedProducts_failure |].
  split; [exact getAllProducts_failure |].
  split; [exact getCategories_failure |].
  exact fetchers_never_throw.
Qed.

Lemma fetch_failures_give_empty_list_witness :
  isFailure (@Samples.offline ProductsResponse allProductsUrl) = true /\
  (exists error,
     Catalog.getAllProducts Samples.offline emptyWorld
     = (Return [], logged emptyWorld "Error fetching products:" error)) /\
  isFailure (Samples.respond 503 (Return Json.VNull) categoriesUrl) = true /\
  (exists error,
     Catalog.getCategories (Samples.respond 503 (Return Json.VNull))
       emptyWorld
     = (Return [], logged emptyWorld "Error fetching categories:" error)).
Proof.
  destruct fetch_failures_give_empty_list as (_ & Hall & Hcat & _).
  split; [reflexivity |]. split; [apply Hall; reflexivity |].
  split; [reflexivity |]. apply Hcat; reflexivity.
Defined.

Example categories_run :
  Catalog.getCategories
    (Samples.respond 200
       (Return (Json.VArray
                  [Json.VObject [("slug", Json.VString "beauty");
                                 ("name", Json.VString "Beauty")];
                   Json.VObject [("slug", Json.VString "furniture")]])))
    emptyWorld
  = (Return [Json.VString "beauty"; Json.VString "furniture"], emptyWorld).
Proof. reflexivity. Qed.

End FailureFacts.

(** ** The server action *)

Module BargainsFacts.
Import Effects Next Bargains.

(** C7.  For every value of the flag, [revalidateBargains] invokes exactly
    one cache function, on the tag ['bargains'], and writes nothing to the
    console: [updateTag], the framework's immediate expiry, when the flag
    is true, and [revalidateTag] with the profile ['max'], its marking of a
    tag as stale, when the flag is false. *)
Theorem revalidateBargains_one_call (fw : framework) (expire : bool)
    (w : world) :
  cacheCalls (snd (revalidateBargains fw expire w))
    = (cacheCalls w
       ++ [if expire then UpdateTag "bargains"
           else RevalidateTag "bargains" "max"])%list /\
  console (snd (revalidateBargains fw expire w)) = console w /\
  fst (revalidateBargains fw expire w)
    = (if expire then updateTagOutcome fw "bargains"
       else revalidateTagOutcome fw "bargains" "max").
Proof.
  destruct expire; repeat split.
Qed.

Example revalidateBargains_run :
  revalidateBargains Samples.quiet true emptyWorld
    = (Return tt, World [] [UpdateTag "bargains"]) /\
  revalidateBargains Samples.quiet false emptyWorld
    = (Return tt, World [] [RevalidateTag "bargains" "max"]).
Proof. split; reflexivity. Qed.

End BargainsFacts.

(** ** The revalidation endpoint *)

Module RouteFacts.
Import Effects Next RevalidateRoute Terms.

Lemma lookup_absent (fields : list (string * Json.value)) :
  existsb (fun field => String.eqb (fst field) "path") fields = false ->
  Json.lookup "path" fields = Json.VUndefined.
Proof.
  induction fields as [| [k v] fields IH]; cbn; [reflexivity |].
  intro H. apply orb_false_iff in H. destruct H as [Hk Hrest].
  rewrite Hk. now apply IH.
Qed.

(** Reading the [path] of a body that is not [null] and has no such
    property gives [undefined]. *)
Lemma getProperty_absent (body : Json.value) (w : world) :
  body <> Json.VNull -> body <> Json.VUndefined ->
  hasPath body = false ->
  getProperty body "path" w = (Return Json.VUndefined, w).
Proof.
  intros Hnull Hundef Hno.
  destruct body; try contradiction; try reflexivity.
  cbn in Hno. unfold getProperty, ret. now rewrite lookup_absent.
Qed.

(** C8, as the handler has it.  For every POST request: when
    [request.json()] gives a body that is not [null] and whose [path] is
    missing or falsy, the response has status 400 with the message
    ['Path is required'] and no cache function is invoked; when the [path]
    is truthy, [revalidatePath] is invoked on it and, once it returns, the
    response has status 200 with [revalidated = true], the same path and
    the current time; and when [request.json()] rejects, the body is [null]
    (reading its [path] throws) or [revalidatePath] throws, the response has
    status 500 with the message ['Error revalidating'] and the error's
    text.  The handler itself never throws. *)
Theorem POST_responses (fw : framework) (request : NextRequest) (w : world) :
  (forall body,
     requestJson request = Return body ->
     body <> Json.VNull -> body <> Json.VUndefined ->
     hasPath body = false ->
     POST fw request w = (Return pathRequired, w)) /\
  (forall body path,
     requestJson request = Return body ->
     getProperty body "path" w = (Return path, w) ->
     Json.truthy path = false ->
     POST fw request w = (Return pathRequired, w)) /\
  (forall body path,
     requestJson request = Return body ->
     getProperty body "path" w = (Return path, w) ->
     Json.truthy path = true ->
     revalidatePathOutcome fw path = Return tt ->
     POST fw request w
     = (Return (revalidated fw path), called w (RevalidatePath path))) /\
  (forall error,
     requestJson request = Throw error ->
     POST fw request w = (Return (errorRevalidating error), w)) /\
  (requestJson request = Return Json.VNull ->
   exists error,
     POST fw request w = (Return (errorRevalidating error), w)) /\
  (forall body path error,
     requestJson request = Return body ->
     getProperty body "path" w = (Return path, w) ->
     Json.truthy path = true ->
     revalidatePathOutcome fw path = Throw error ->
     POST fw request w
     = (Return (errorRevalidating error), called w (RevalidatePath path))) /\
  (exists response w', POST fw request w = (Return response, w')).
Proof.
  split.
  { intros body Hreq Hnull Hundef Hno.
    unfold POST, tryCatch, bind, await.
    rewrite Hreq, (getProperty_absent body w Hnull Hundef Hno).
    reflexivity. }
  unfold POST, tryCatch, bind, await, revalidatePath, invoke, outcomeOf, ret.
  repeat split.
  - intros body path Hreq Hget Hfalsy.
    rewrite Hreq, Hget, Hfalsy. reflexivity.
  - intros body path Hreq Hget Htruthy Hout.
    rewrite Hreq, Hget, Htruthy, Hout. reflexivity.
  - intros error Hreq. rewrite Hreq. reflexivity.
  - intro Hreq. rewrite Hreq. unfold getProperty, throw.
    eexists. reflexivity.
  - intros body path error Hreq Hget Htruthy Hout.
    rewrite Hreq, Hget, Htruthy, Hout. reflexivity.
  - destruct (requestJson request) as [body | error]; [| eauto].
    destruct (getProperty body "path" w) as [[path | error] w1]; [| eauto].
    destruct (Json.truthy path); cbn; [| eauto].
    destruct (revalidatePathOutcome fw path); eauto.
Qed.

Lemma POST_responses_witness :
  POST Samples.quiet
    {| requestJson := Return (Json.VObject [("tag", Json.VString "x")]) |}
    emptyWorld
  = (Return pathRequired, emptyWorld) /\
  POST Samples.quiet
    {| requestJson :=
         Return (Json.VObject [("path", Json.VString "/bargains")]) |}
    emptyWorld
  = (Return (revalidated Samples.quiet (Json.VString "/bargains")),
     World [] [RevalidatePath (Json.VString "/bargains")]) /\
  POST Samples.quiet
    {| requestJson := Return (Json.VObject [("path", Json.VString "")]) |}
    emptyWorld
  = (Return pathRequired, emptyWorld).
Proof.
  split; [| split].
  - destruct (POST_responses Samples.quiet
                {| requestJson :=
                     Return (Json.VObject [("tag", Json.VString "x")]) |}
                emptyWorld) as (Habsent & _).
    apply (Habsent _ eq_refl); [discriminate | discriminate | reflexivity].
  - destruct (POST_responses Samples.quiet
                {| requestJson :=
                     Return (Json.VObject
                               [("path", Json.VString "/bargains")]) |}
                emptyWorld) as (_ & _ & Hok & _).
    apply (Hok _ _ eq_refl eq_refl eq_refl eq_refl).
  - destruct (POST_responses Samples.quiet
                {| requestJson :=
                     Return (Json.VObject [("path", Json.VString "")]) |}
                emptyWorld) as (_ & Hmissing & _).
    apply (Hmissing _ _ eq_refl eq_refl eq_refl).
Defined.

(** The JSON body [null] has no path, and the response to it has status
    500, not 400. *)
Lemma null_body_is_an_error :
  hasPath Json.VNull = false /\
  (exists response w',
     POST Samples.quiet {| requestJson := Return Json.VNull |} emptyWorld
     = (Return response, w') /\
     responseStatus response = 500 /\
     responseStatus response <> 400).
Proof.
  split; [reflexivity |].
  eexists _, _. split; [reflexivity |]. cbn. split; [reflexivity | lia].
Qed.

End RouteFacts.

(** ** On-demand invalidation *)

Module InvalidationFacts.
Import Effects Next Bargains RevalidateRoute CacheLife CacheRuntime Terms.

Lemma after_updateTag (fw : framework) (e : entry) :
  after fw (revalidateBargains fw true) e
  = applyCall fw (UpdateTag "bargains") e.
Proof. reflexivity. Qed.

Lemma after_revalidateTag (fw : framework) (e : entry) :
  after fw (revalidateBargains fw false) e
  = applyCall fw (RevalidateTag "bargains" "max") e.
Proof. reflexivity. Qed.

Lemma after_POST (fw : framework) (p : string) (e : entry) :
  p <> "" ->
  after fw (POST fw (pathRequest p)) e
  = applyCall fw (RevalidatePath (Json.VString p)) e.
Proof.
  intro Hp. unfold after, POST, pathRequest, tryCatch, bind, await.
  cbn [requestJson getProperty Json.lookup String.eqb Ascii.eqb Bool.eqb
       ret].
  cbn [Json.truthy]. rewrite (truthyString_nonempty p Hp).
  cbn [negb]. unfold revalidatePath, invoke.
  destruct (outcomeOf fw (RevalidatePath (Json.VString p))); reflexivity.
Qed.

(** C5, as the action and the endpoint have it.  For every cache entry in
    the Fresh or Stale state, whatever its age, and for calls the framework
    completes normally: when the entry carries the tag ['bargains'], the
    action with the flag true ([updateTag]) moves it directly to Expired,
    so that the next fetch recomputes before responding, while the action
    with the flag false ([revalidateTag] with ['max']) leaves it Stale, so
    that the next fetch is still served the cached value and the
    recomputation runs behind it; and a POST of the entry's (non-empty)
    path to the endpoint moves it to Expired.  The age is not changed by
    any of them. *)
Theorem on_demand_invalidation (fw : framework) (e : entry) :
  entryState e = Fresh \/ entryState e = Stale ->
  (tagged "bargains" e = true ->
   updateTagOutcome fw "bargains" = Return tt ->
     entryState (after fw (revalidateBargains fw true) e) = Expired /\
     nextFetch (after fw (revalidateBargains fw true) e)
       = RecomputeBeforeResponding /\
     entryAge (after fw (revalidateBargains fw true) e) = entryAge e) /\
  (tagged "bargains" e = true ->
   revalidateTagOutcome fw "bargains" "max" = Return tt ->
     entryState (after fw (revalidateBargains fw false) e) = Stale /\
     nextFetch (after fw (revalidateBargains fw false) e)
       = ServeCachedThenRecompute /\
     entryAge (after fw (revalidateBargains fw false) e) = entryAge e) /\
  (entryPath e <> "" ->
   revalidatePathOutcome fw (Json.VString (entryPath e)) = Return tt ->
     entryState (after fw (POST fw (pathRequest (entryPath e))) e)
       = Expired /\
     nextFetch (after fw (POST fw (pathRequest (entryPath e))) e)
       = RecomputeBeforeResponding /\
     entryAge (after fw (POST fw (pathRequest (entryPath e))) e)
       = entryAge e).
Proof.
  intro Hstate. split; [| split]; intros H Hdone.
  - rewrite after_updateTag. unfold applyCall, outcomeOf, effectOf.
    rewrite Hdone, H. repeat split.
  - rewrite after_revalidateTag. unfold applyCall, outcomeOf, effectOf.
    rewrite Hdone, H. unfold nextFetch, withState. cbn.
    destruct Hstate as [Hs | Hs]; rewrite Hs; repeat split.
  - rewrite (after_POST fw _ e H).
    unfold applyCall, outcomeOf, effectOf, filedUnder.
    rewrite Hdone, String.eqb_refl. repeat split.
Qed.

Lemma on_demand_invalidation_witness :
  entryState (after Samples.quiet (revalidateBargains Samples.quiet true)
                (Samples.bargainsEntry 20 Fresh)) = Expired /\
  entryState (after Samples.quiet
                (POST Samples.quiet (pathRequest "/bargains"))
                (Samples.bargainsEntry 320 Stale)) = Expired.
Proof.
  split.
  - destruct (on_demand_invalidation Samples.quiet
                (Samples.bargainsEntry 20 Fresh) (or_introl eq_refl))
      as (Hupdate & _).
    apply Hupdate; reflexivity.
  - destruct (on_demand_invalidation Samples.quiet
                (Samples.bargainsEntry 320 Stale) (or_intror eq_refl))
      as (_ & _ & Hpost).
    apply Hpost; [discriminate | reflexivity].
Defined.

(** The action with the flag false, on a fresh entry tagged ['bargains']:
    the entry becomes Stale, not Expired, and the next fetch is served the
    cached value. *)
Lemma revalidateTag_does_not_expire :
  tagged "bargains" (Samples.bargainsEntry 20 Fresh) = true /\
  entryState (after Samples.quiet (revalidateBargains Samples.quiet false)
                (Samples.bargainsEntry 20 Fresh)) = Stale /\
  entryState (after Samples.quiet (revalidateBargains Samples.quiet false)
                (Samples.bargainsEntry 20 Fresh)) <> Expired /\
  nextFetch (after Samples.quiet (revalidateBargains Samples.quiet false)
               (Samples.bargainsEntry 20 Fresh))
    = ServeCachedThenRecompute.
Proof.
  repeat split; discriminate.
Qed.

End InvalidationFacts.

(** ** Discounts *)

Module DiscountFacts.
Import Upstream Terms.

(** On the landing page a discounted product always shows its original
    price. *)
Lemma home_shows_original (product : Product) :
  JS.gt (discountPercentage product) 0%float = true ->
  Home.cardOriginalPrice (Home.renderFooter product)
    = Some (JS.toFixed (original product) 2).
Proof.
  intro H. unfold Home.renderFooter, original.
  cbn [Home.cardOriginalPrice]. now rewrite H.
Qed.

(** On the detail page a discounted product shows its savings, and its
    original price when that price is a truthy number. *)
Lemma detail_shows_discount (product : Product) :
  JS.gt (discountPercentage product) 0%float = true ->
  ProductDetail.savings (ProductDetail.renderPriceSection product)
    = Some (JS.toFixed (original product - price product)%float 2) /\
  ProductDetail.originalPrice (ProductDetail.renderPriceSection product)
    = (if JS.truthyNumber (original product)
       then Some (JS.toFixed (original product) 2) else None).
Proof.
  intro H.
  unfold ProductDetail.renderPriceSection, ProductDetail.discountedPrice.
  cbn [ProductDetail.savings ProductDetail.originalPrice]. rewrite H.
  split; reflexivity.
Qed.

(** Without a discount neither page shows an original price or savings. *)
Lemma no_discount_no_original (product : Product) :
  is_zero (discountPercentage product) = true ->
  Home.cardOriginalPrice (Home.renderFooter product) = None /\
  ProductDetail.originalPrice (ProductDetail.renderPriceSection product)
    = None /\
  ProductDetail.savings (ProductDetail.renderPriceSection product) = None.
Proof.
  intro H. apply NumberFacts.zero_not_positive in H.
  unfold Home.renderFooter, ProductDetail.renderPriceSection,
    ProductDetail.discountedPrice.
  cbn [Home.cardOriginalPrice ProductDetail.savings
       ProductDetail.originalPrice].
  rewrite H. repeat split.
Qed.


Example discounted_product_run :
  ProductDetail.renderPriceSection Samples.mascara
  = {| ProductDetail.currentPrice := 10%float;
       ProductDetail.originalPrice :=
         Some (JS.toFixed (10 / (1 - 30 / 100))%float 2);
       ProductDetail.savings :=
         Some (JS.toFixed (10 / (1 - 30 / 100) - 10)%float 2) |}.
Proof. vm_compute. reflexivity. Qed.

End DiscountFacts.

(** ** Order of binary64 numbers *)

Module OrderFacts.
Import MoreTerms.

Lemma SFcompare_antisym (x y : spec_float) :
  SFcompare y x = option_map CompOpp (SFcompare x y).
Proof.
  destruct x as [sx | sx | | sx mx ex], y as [sy | sy | | sy my ey];
    try destruct sx; try destruct sy; try reflexivity;
    cbn [SFcompare option_map];
    rewrite (Z.compare_antisym ex ey);
    destruct (ex ?= ey); cbn [CompOpp]; try reflexivity;
    rewrite <- (Pos.compare_cont_antisym _ _ Eq); cbn [CompOpp];
    try reflexivity;
    now rewrite CompOpp_involutive.
Qed.

(** [a < b] excludes [b < a] and [b <= a]. *)
Lemma ltb_asym (a b : float) :
  (a <? b)%float = true -> (b <? a)%float = false /\ (b <=? a)%float = false.
Proof.
  rewrite !ltb_spec, leb_spec. unfold SFltb, SFleb.
  rewrite (SFcompare_antisym (Prim2SF a) (Prim2SF b)).
  destruct (SFcompare (Prim2SF a) (Prim2SF b)) as [[| |] |];
    try discriminate; intros _; split; reflexivity.
Qed.

Lemma lexLe_trans e1 m1 e2 m2 e3 m3 :
  lexLe e1 m1 e2 m2 -> lexLe e2 m2 e3 m3 -> lexLe e1 m1 e3 m3.
Proof. unfold lexLe. lia. Qed.

Lemma SFle_finite (s1 s2 : bool) (m1 m2 : positive) (e1 e2 : Z) :
  SFle (S754_finite s1 m1 e1) (S754_finite s2 m2 e2) <->
  match s1, s2 with
  | true, false => True
  | false, true => False
  | false, false => lexLe e1 m1 e2 m2
  | true, true => lexLe e2 m2 e1 m1
  end.
Proof.
  unfold SFle, SFleb, SFcompare, lexLe.
  change (Pos.compare_cont Eq m1 m2) with (m1 ?= m2)%positive.
  destruct s1, s2;
    destruct (Z.compare_spec e1 e2) as [E | E | E];
    destruct (Pos.compare_spec m1 m2) as [P | P | P];
    cbn [CompOpp]; split; intro H;
    try reflexivity; try discriminate; try exact I; try contradiction;
    lia.
Qed.

Lemma SFle_trans (x y z : spec_float) :
  SFle x y -> SFle y z -> SFle x z.
Proof.
  destruct x as [sx | sx | | sx mx ex], y as [sy | sy | | sy my ey],
    z as [sz | sz | | sz mz ez];
    try (intros H1 H2; rewrite SFle_finite in *;
         destruct sx, sy, sz; try tauto;
         eauto using lexLe_trans; fail);
    unfold SFle, SFleb, SFcompare;
    try destruct sx; try destruct sy; try destruct sz;
    try reflexivity; try discriminate; intros; try discriminate;
    try reflexivity.
Qed.

Lemma leb_trans (a b c : float) :
  (a <=? b)%float = true -> (b <=? c)%float = true ->
  (a <=? c)%float = true.
Proof.
  rewrite !leb_spec. apply SFle_trans.
Qed.

End OrderFacts.

(** ** The detail page as a whole *)

Module DetailPageFacts.
Import Effects Upstream Next ProductDetail DetailParts Terms FetchFacts.

(** What [getProduct] returns is decided by the network alone: a product
    when the response is OK and parses, [null] otherwise. *)
Lemma getProduct_cases (net : network Product) (id : string) :
  (exists res product,
     net (productUrl id) = Return res /\ ok res = true /\
     json res = Return product /\
     forall w, getProduct net id w = (Return (Some product), w)) \/
  (isFailure (net (productUrl id)) = true /\
   forall w, exists w', getProduct net id w = (Return None, w')).
Proof.
  unfold getProduct, isFailure. fold (productUrl id).
  destruct (net (productUrl id)) as [res | t] eqn:Hnet.
  - destruct (ok res) eqn:Hok.
    + destruct (json res) as [product | t] eqn:Hjson.
      * left. exists res, product. repeat split; try assumption.
        intro w. rewrite tryCatch_default. unfold bind, fetch, await.
        rewrite Hnet, Hok. cbn. now rewrite Hjson.
      * right. split; [reflexivity |]. intro w.
        rewrite tryCatch_default. unfold bind, fetch, await.
        rewrite Hnet, Hok. cbn. rewrite Hjson. eauto.
    + right. split; [reflexivity |]. intro w.
      rewrite tryCatch_default. unfold bind, fetch, await.
      rewrite Hnet, Hok. cbn. destruct (status res =? 404); cbn; eauto.
  - right. split; [reflexivity |]. intro w.
    rewrite tryCatch_default. unfold bind, fetch, await.
    rewrite Hnet. eauto.
Qed.

Lemma getRelatedProducts_returns (net : network ProductsResponse)
    (category : string) (currentId : JS.number) (limit : Z) (w : world) :
  exists related w',
    getRelatedProducts net category currentId limit w = (Return related, w').
Proof.
  unfold getRelatedProducts. rewrite tryCatch_default.
  match goal with
  | |- context [match ?b w with _ => _ end] => destruct (b w) as [[a | t] w']
  end; eauto.
Qed.



(** X2.  The metadata agrees with the page: [generateMetadata] never
    throws, and it gives the "Product Not Found" metadata, without Open
    Graph data, exactly when the page for the same identifier over the same
    network is the not-found page; otherwise its title is the product's
    title followed by [" | ShopFlow"]. *)
Theorem metadata_agrees_with_page (net : network Product)
    (netRelated : network ProductsResponse) (id : string) (w1 w2 : world) :
  exists m w',
    generateMetadata net id w1 = (Return m, w') /\
    (openGraph m = None <->
     render (fst (ProductDetailPage net netRelated id w2)) = NotFoundPage) /\
    (openGraph m = None -> metaTitle m = "Product Not Found | ShopFlow") /\
    (forall v,
       render (fst (ProductDetailPage net netRelated id w2)) = Page v ->
       metaTitle m = title (shown v) ++ " | ShopFlow" /\
       metaDescription m = description (shown v)).
Proof.
  destruct (getProduct_cases net id)
    as [(res & product & _ & _ & _ & Hsome) | (_ & Hnone)].
  - destruct (getRelatedProducts_returns netRelated (category product)
                (Upstream.id product) defaultLimit w2)
      as (related & w' & Hrel).
    assert (Hpage : ProductDetailPage net netRelated id w2
                    = (Return {| shown := product;
                                 prices := renderPriceSection product;
                                 relatedProducts := related |}, w')).
    { unfold ProductDetailPage, bind. rewrite (Hsome w2), Hrel.
      reflexivity. }
    eexists _, w1. split.
    + unfold generateMetadata, bind. rewrite (Hsome w1). reflexivity.
    + rewrite Hpage. cbn. split; [split; discriminate |].
      split; [discriminate |].
      intros v Hv. injection Hv as <-. split; reflexivity.
  - destruct (Hnone w1) as [w1' Hget1]. destruct (Hnone w2) as [w2' Hget2].
    eexists _, w1'. split.
    + unfold generateMetadata, bind. rewrite Hget1. reflexivity.
    + unfold ProductDetailPage, bind. rewrite Hget2. cbn.
      split; [split; reflexivity |].
      split; [reflexivity |]. intros v Hv. discriminate Hv.
Qed.

End DetailPageFacts.

(** ** More on the catalog filter *)

Module FilterFacts.
Import Upstream Catalog Terms CatalogFacts OrderFacts MoreTerms.

Lemma filterProducts_accepts (q : searchParams) (l : list Product) :
  filterProducts q l = filter (accepts q) l.
Proof. apply filterProducts_filter. Qed.

(** X3.  A price range given upside down matches nothing: when both
    bounds are provided and the maximum parses to a number below the
    minimum, the result is empty whatever the products and the other
    parameters are. *)
Theorem inverted_price_range_is_empty (q : searchParams)
    (allProducts : list Product) (lo hi : string) :
  minPrice q = Some lo -> maxPrice q = Some hi ->
  lo <> "" -> hi <> "" ->
  (JS.parseFloat hi <? JS.parseFloat lo)%float = true ->
  filterProducts q allProducts = [].
Proof.
  intros Hmin Hmax Hlo Hhi Hinv.
  rewrite filterProducts_accepts. apply filter_none. intro p.
  unfold accepts. rewrite Hmin, Hmax. cbn [keeps].
  rewrite (truthyString_nonempty lo Hlo), (truthyString_nonempty hi Hhi).
  unfold atLeast, atMost, JS.ge, JS.le.
  destruct (JS.parseFloat lo <=? price p)%float eqn:E1;
    [| now rewrite andb_false_r].
  destruct (price p <=? JS.parseFloat hi)%float eqn:E2;
    [| now rewrite andb_false_r].
  pose proof (leb_trans _ _ _ E1 E2) as Hle.
  destruct (ltb_asym _ _ Hinv) as [_ Hnot]. congruence.
Qed.

Lemma inverted_price_range_is_empty_witness :
  filterProducts
    {| category := None; search := None;
       minPrice := Some "100"; maxPrice := Some "20" |}
    Samples.shelf = [].
Proof.
  apply (inverted_price_range_is_empty _ _ "100" "20");
    try reflexivity; discriminate.
Defined.

(** X4.  Narrowing the price range never adds products: with a minimum
    that parses to a number at least as large, or a maximum that parses to
    a number at most as large, every product of the new result was in the
    old one. *)
Theorem narrowing_price_range (q : searchParams) (allProducts : list Product)
    (old new : string) :
  old <> "" -> new <> "" ->
  ((JS.parseFloat old <=? JS.parseFloat new)%float = true ->
   incl (filterProducts (withMinPrice q new) allProducts)
        (filterProducts (withMinPrice q old) allProducts)) /\
  ((JS.parseFloat new <=? JS.parseFloat old)%float = true ->
   incl (filterProducts (withMaxPrice q new) allProducts)
        (filterProducts (withMaxPrice q old) allProducts)).
Proof.
  intros Hold Hnew.
  split; intros Hle p Hin;
    apply filterProducts_In in Hin; apply filterProducts_In;
    cbn [category search minPrice maxPrice withMinPrice withMaxPrice keeps]
      in *;
    rewrite (truthyString_nonempty old Hold);
    rewrite (truthyString_nonempty new Hnew) in Hin;
    destruct Hin as (Hl & Hc & Hs & Hlo & Hhi);
    repeat split; try assumption.
  - unfold atLeast, JS.ge in *. exact (leb_trans _ _ _ Hle Hlo).
  - unfold atMost, JS.le in *. exact (leb_trans _ _ _ Hhi Hle).
Qed.

Lemma narrowing_price_range_witness :
  incl (filterProducts
          (withMinPrice {| category := None; search := None;
                           minPrice := None; maxPrice := None |} "30")
          Samples.shelf)
       (filterProducts
          (withMinPrice {| category := None; search := None;
                           minPrice := None; maxPrice := None |} "5.5")
          Samples.shelf).
Proof.
  assert (H1 : "5.5" <> "") by discriminate.
  assert (H2 : "30" <> "") by discriminate.
  destruct (narrowing_price_range
              {| category := None; search := None;
                 minPrice := None; maxPrice := None |}
              Samples.shelf "5.5" "30" H1 H2) as (Hmin & _).
  apply Hmin. vm_compute. reflexivity.
Defined.






End FilterFacts.

(** ** The categories of the catalog page *)

Module CatalogPageFacts.
Import Effects Upstream Next Catalog Terms FetchFacts.

Lemma mapM_slugs (objects : list (list (string * Json.value))) (w : world) :
  mapM (fun cat => getProperty cat "slug") (map Json.VObject objects) w
  = (Return (map (Json.lookup "slug") objects), w).
Proof.
  induction objects as [| o objects IH]; [reflexivity |].
  cbn [map mapM]. unfold bind at 1. cbn [getProperty ret].
  unfold bind at 1. rewrite IH. reflexivity.
Qed.

(** X6.  How [getCategories] reads an OK response: an array of strings is
    returned as it is; an array of objects whose first has a truthy [slug]
    is returned as the [slug] of each object, in order; an array of objects
    whose first has no truthy [slug], an empty array and any body that is
    not an array give the empty list.  None of these logs anything. *)
Theorem categories_are_decoded (net : network Json.value) (w : world)
    (res : Response Json.value) :
  net categoriesUrl = Return res ->
  ok res = true ->
  (forall name names,
     json res = Return (Json.VArray (map Json.VString (name :: names))) ->
     getCategories net w
     = (Return (map Json.VString (name :: names)), w)) /\
  (forall object objects,
     json res = Return (Json.VArray (map Json.VObject (object :: objects))) ->
     getCategories net w
     = (Return (if Json.truthy (Json.lookup "slug" object)
                then map (Json.lookup "slug") (object :: objects)
                else []), w)) /\
  (forall body,
     json res = Return body ->
     (forall first rest, body <> Json.VArray (first :: rest)) ->
     getCategories net w = (Return [], w)).
Proof.
  intros Hnet Hok.
  assert (Hbody : forall body,
            json res = Return body ->
            getCategories net w
            = match
                match body with
                | Json.VArray (first :: rest) =>
                    if String.eqb (Json.typeof first) "string" then
                      ret (first :: rest)
                    else if String.eqb (Json.typeof first) "object" then
                      bind (getProperty first "slug") (fun slug =>
                        if Json.truthy slug
                        then mapM (fun cat => getProperty cat "slug")
                               (first :: rest)
                        else ret [])
                    else ret []
                | _ => ret []
                end w
              with
              | (Return a, w') => (Return a, w')
              | (Throw t, w') =>
                  (Return [], logged w' "Error fetching categories:" t)
              end).
  { intros body Hjson. unfold getCategories. rewrite tryCatch_default.
    unfold bind at 1. unfold fetch, await. fold categoriesUrl.
    rewrite Hnet. cbn beta iota. rewrite Hok. cbn [negb].
    unfold bind at 1. rewrite Hjson. reflexivity. }
  split; [| split].
  - intros name names Hjson. rewrite (Hbody _ Hjson). reflexivity.
  - intros object objects Hjson. rewrite (Hbody _ Hjson).
    cbn [map Json.typeof String.eqb Ascii.eqb Bool.eqb].
    unfold bind. cbn [getProperty ret].
    destruct (Json.truthy (Json.lookup "slug" object)); [| reflexivity].
    change (Json.VObject object :: map Json.VObject objects)
      with (map Json.VObject (object :: objects)).
    rewrite mapM_slugs. reflexivity.
  - intros body Hjson Hshape. rewrite (Hbody _ Hjson).
    destruct body as [| | b | x | s | items | fields]; try reflexivity.
    destruct items as [| first rest]; [reflexivity |].
    now elim (Hshape first rest).
Qed.

Lemma categories_are_decoded_witness :
  getCategories
    (Samples.respond 200
       (Return (Json.VArray
                  (map Json.VString ["beauty"; "furniture"]))))
    emptyWorld
  = (Return (map Json.VString ["beauty"; "furniture"]), emptyWorld).
Proof.
  destruct (categories_are_decoded
              (Samples.respond 200
                 (Return (Json.VArray
                            (map Json.VString ["beauty"; "furniture"]))))
              emptyWorld
              {| status := 200;
                 json := Return (Json.VArray
                                   (map Json.VString
                                      ["beauty"; "furniture"])) |}
              eq_refl eq_refl) as (Hstrings & _).
  apply (Hstrings "beauty" ["furniture"]). reflexivity.
Defined.

End CatalogPageFacts.
